(** * p/Z material balance: the regression of [GUI/GUI_Material_Balance.py]

    A shallow embedding of the regression engine of the material-balance
    program ([perform_regression_analysis], [save_report]) together with the
    module-level variables it reads and writes.

    Numbers.  The program computes with IEEE binary64 values (Python [float],
    NumPy [float64]).  Two layers model them.

    The invocation as a whole ([perform_regression_analysis], [save_report])
    is written over [float] below: a rational, one of the two infinities, or
    NaN.  Its special values follow IEEE 754 (division by zero, [inf - inf],
    [0 * inf], NaN propagation, comparisons with NaN); its finite values are
    computed without rounding.  What is proved over it is about the control
    flow, the dialogs and the module-level variables; where an example pins
    a number, the program computes that number without rounding too.

    The fit itself (lines 101 to 111) is written a second time in [Binary64],
    over the binary64 format of the standard library's [SpecFloat], with
    every product, sum and quotient rounded to nearest even, overflow and
    underflow included.  What is claimed of the numbers the fit returns is
    settled there. *)

From Stdlib Require Import ZArith QArith List String Bool Arith Lia Lqa.
From Stdlib Require SpecFloat.
Import ListNotations.
Local Open Scope Q_scope.

(** ** Numbers *)

Inductive float : Type :=
| Fin (q : Q)
| PInf
| NInf
| NaN.

Definition fzero : float := Fin 0.
Definition fone : float := Fin 1.

Definition fneg (a : float) : float :=
  match a with
  | Fin q => Fin (- q)
  | PInf => NInf
  | NInf => PInf
  | NaN => NaN
  end.

Definition fadd (a b : float) : float :=
  match a, b with
  | NaN, _ | _, NaN => NaN
  | Fin p, Fin q => Fin (p + q)
  | PInf, NInf | NInf, PInf => NaN
  | PInf, _ | _, PInf => PInf
  | NInf, _ | _, NInf => NInf
  end.

Definition fsub (a b : float) : float := fadd a (fneg b).

(** An infinity scaled by the sign of a finite factor. *)
Definition scale_inf (positive : bool) (q : Q) : float :=
  match q ?= 0 with
  | Gt => if positive then PInf else NInf
  | Lt => if positive then NInf else PInf
  | Eq => NaN
  end.

Definition fmul (a b : float) : float :=
  match a, b with
  | NaN, _ | _, NaN => NaN
  | Fin p, Fin q => Fin (p * q)
  | PInf, Fin q | Fin q, PInf => scale_inf true q
  | NInf, Fin q | Fin q, NInf => scale_inf false q
  | PInf, PInf | NInf, NInf => PInf
  | PInf, NInf | NInf, PInf => NInf
  end.

(** NumPy's element-wise [/] on float64: a zero divisor gives an infinity or
    NaN, never an exception. *)
Definition fdiv (a b : float) : float :=
  match a, b with
  | NaN, _ | _, NaN => NaN
  | Fin p, Fin q =>
      if Qeq_bool q 0
      then match p ?= 0 with Gt => PInf | Lt => NInf | Eq => NaN end
      else Fin (p / q)
  | Fin _, PInf | Fin _, NInf => Fin 0
  | PInf, Fin q => if Qle_bool 0 q then PInf else NInf
  | NInf, Fin q => if Qle_bool 0 q then NInf else PInf
  | PInf, PInf | PInf, NInf | NInf, PInf | NInf, NInf => NaN
  end.

(** [a == b] on floats: NaN is equal to nothing. *)
Definition feqb (a b : float) : bool :=
  match a, b with
  | Fin p, Fin q => Qeq_bool p q
  | PInf, PInf | NInf, NInf => true
  | _, _ => false
  end.

(** [a != b] is the negation of [==], also on NaN. *)
Definition fneb (a b : float) : bool := negb (feqb a b).

(** [pd.isna] on a float. *)
Definition isna (a : float) : bool :=
  match a with NaN => true | _ => false end.

(** Exceptions the modelled code can raise inside a [try] block. *)
Inductive exn : Type :=
| ZeroDivisionError
| IndexError
| TypeError
| OSError.

(** Python's [/] on two [float] objects: a zero divisor raises. *)
Definition py_truediv (a b : float) : exn + float :=
  if feqb b fzero then inl ZeroDivisionError else inr (fdiv a b).

(** ** NumPy arrays (one-dimensional, float64) *)

Definition ndarray : Type := list float.

Definition np_sum (a : ndarray) : float := fold_left fadd a fzero.

Definition np_mean (a : ndarray) : float :=
  fdiv (np_sum a) (Fin (inject_Z (Z.of_nat (List.length a)))).

Fixpoint zip_with (f : float -> float -> float) (a b : ndarray) : ndarray :=
  match a, b with
  | u :: a', v :: b' => f u v :: zip_with f a' b'
  | _, _ => []
  end.

(** [a * b], [a - b] on arrays of the same length. *)
Definition arr_mul : ndarray -> ndarray -> ndarray := zip_with fmul.
Definition arr_sub : ndarray -> ndarray -> ndarray := zip_with fsub.

(** [a ** 2]: NumPy evaluates the power 2 as a square. *)
Definition arr_sq (a : ndarray) : ndarray := map (fun v => fmul v v) a.

(** [c * a] and [a - c] with a scalar [c]. *)
Definition scalar_mul (c : float) (a : ndarray) : ndarray := map (fmul c) a.
Definition sub_scalar (a : ndarray) (c : float) : ndarray :=
  map (fun v => fsub v c) a.

(** ** The dataset

    [production_data] is a pandas DataFrame.  A row carries the four
    canonical columns; the derived columns ['x'] and ['y'] are [None] until
    the regression assigns them.  The [Pressure] and [Z] columns are of float
    dtype (a missing cell is NaN).  A [CumProduction] cell is the number its
    text denotes or, when it denotes none, the text itself. *)

Inductive cell : Type :=
| CNum (v : float)
| CText (s : string).

Record row : Type := mkRow {
  Date : string;
  Pressure : float;
  Z : float;
  CumProduction : cell;
  x : option float;
  y : option float
}.

Definition DataFrame : Type := list row.

(** A record as the loader produces it: no derived column yet. *)
Definition record (d : string) (p z : float) (c : cell) : row :=
  mkRow d p z c None None.

(** [pd.to_numeric(..., errors='coerce')] on one cell. *)
Definition to_numeric_coerce (c : cell) : float :=
  match c with
  | CNum v => v
  | CText _ => NaN
  end.

(** [df['x'] = s] and [df['y'] = s]: the series [s] comes from the frame
    itself, so it is aligned with the rows position by position. *)
Fixpoint assign_x (df : DataFrame) (s : ndarray) : DataFrame :=
  match df, s with
  | r :: df', v :: s' =>
      mkRow (Date r) (Pressure r) (Z r) (CumProduction r) (Some v) (y r)
      :: assign_x df' s'
  | _, _ => []
  end.

Fixpoint assign_y (df : DataFrame) (s : ndarray) : DataFrame :=
  match df, s with
  | r :: df', v :: s' =>
      mkRow (Date r) (Pressure r) (Z r) (CumProduction r) (x r) (Some v)
      :: assign_y df' s'
  | _, _ => []
  end.

(** A missing value in an optional column: the column is absent or the cell
    is NaN. *)
Definition cell_isna (v : option float) : bool :=
  match v with
  | Some a => isna a
  | None => true
  end.

(** [df.dropna(subset=['x', 'y'], inplace=True)]: the rows with a value in
    both columns, in order. *)
Definition dropna_xy (df : DataFrame) : DataFrame :=
  filter (fun r => negb (cell_isna (x r)) && negb (cell_isna (y r))) df.

(** [df['x'].values], [df['y'].values]. *)
Definition values (col : row -> option float) (df : DataFrame) : ndarray :=
  map (fun r => match col r with Some v => v | None => NaN end) df.

(** ** The module-level variables and the dialogs *)

Inductive message : Type :=
| showerror (title body : string)
| showerror_exn (title prefix : string) (e : exn)
| showinfo_results (slope ogip r_squared : float)
| showinfo (title body : string).

(** What the regression hands to the plot: the scattered points, the fitted
    line and the slope of its label. *)
Record figure : Type := mkFigure {
  scatter_x : ndarray;
  scatter_y : ndarray;
  line_y : ndarray;
  label_slope : float
}.

(** The module-level variables, with the dialogs shown so far (oldest
    first) and the report files written so far. *)
Record State : Type := mkState {
  production_data : option DataFrame;
  reg_canvas : option figure;
  estimated_ogip_scf : option float;
  slope : option float;
  r_squared : option float;
  messages : list message;
  files : list (string * list (string * string * float))
}.

Definition show (m : message) (st : State) : State :=
  mkState (production_data st) (reg_canvas st) (estimated_ogip_scf st)
          (slope st) (r_squared st) (messages st ++ [m]) (files st).

Definition set_production_data (df : DataFrame) (st : State) : State :=
  mkState (Some df) (reg_canvas st) (estimated_ogip_scf st)
          (slope st) (r_squared st) (messages st) (files st).

(** ** perform_regression_analysis *)

(** Lines 94-95: the two derived columns, for every row of the frame. *)
Definition with_xy (ratio : float) (df : DataFrame) : DataFrame :=
  let df1 :=
    assign_x df (map (fsub ratio)
                     (zip_with fdiv (map Pressure df) (map Z df))) in
  assign_y df1 (map to_numeric_coerce (map CumProduction df1)).

(** Lines 92-96: the reference point, the derived columns and the filter.
    [iloc[0]] raises on a frame without rows; otherwise the only expression
    that can raise is the Python division [initial_pressure / initial_z],
    which is evaluated before the frame is touched. *)
Definition transform (df : DataFrame) : exn + DataFrame :=
  match df with
  | [] => inl IndexError
  | r0 :: _ =>
      let initial_pressure := Pressure r0 in
      let initial_z := Z r0 in
      match py_truediv initial_pressure initial_z with
      | inl e => inl e
      | inr ratio => inr (dropna_xy (with_xy ratio df))
      end
  end.

(** Lines 105-111, once the sum of squares is known not to be zero. *)
Definition fit_slope (xs ys : ndarray) : float :=
  fdiv (np_sum (arr_mul xs ys)) (np_sum (arr_sq xs)).

Definition fit_r_squared (slope : float) (xs ys : ndarray) : float :=
  let y_pred := scalar_mul slope xs in
  let residuals := arr_sub ys y_pred in
  let ss_res := np_sum (arr_sq residuals) in
  let ss_tot := np_sum (arr_sq (sub_scalar ys (np_mean ys))) in
  if fneb ss_tot fzero then fsub fone (fdiv ss_res ss_tot) else fzero.

Definition perform_regression_analysis (st : State) : State :=
  match production_data st with
  | None => show (showerror "No Data" "Please load a CSV file first.") st
  | Some [] => show (showerror "No Data" "Please load a CSV file first.") st
  | Some ((r0 :: _) as df) =>
      match transform df with
      | inl e =>
          show (showerror_exn "Calculation Error" "Error in regression: " e) st
      | inr df' =>
          let initial_pressure := Pressure r0 in
          let xs := values x df' in
          let ys := values y df' in
          if feqb (np_sum (arr_sq xs)) fzero then
            show (showerror "Regression Error"
                    "Sum of squares of x is zero; cannot perform regression.")
                 (set_production_data df' st)
          else
            let slope := fit_slope xs ys in
            let estimated_ogip_scf := fmul slope initial_pressure in
            let y_pred := scalar_mul slope xs in
            let r_squared := fit_r_squared slope xs ys in
            mkState (Some df')
                    (Some (mkFigure xs ys y_pred slope))
                    (Some estimated_ogip_scf) (Some slope) (Some r_squared)
                    (messages st ++ [showinfo_results slope estimated_ogip_scf r_squared])
                    (files st)
      end
  end.

(** ** save_report

    [file_path] is the answer of the save dialog (empty when cancelled) and
    [write_ok] tells whether [to_excel] succeeds.  A report cell pairs a
    format specification with the number it is applied to. *)

Definition newline : string := String (Ascii.ascii_of_nat 10) EmptyString.

Definition save_report (file_path : string) (write_ok : bool) (st : State)
  : State :=
  match estimated_ogip_scf st with
  | None => show (showerror "No Results" "Please perform regression first.") st
  | Some ogip =>
      if String.eqb file_path EmptyString then st
      else
        match slope st, r_squared st with
        | Some s, Some r2 =>
            let df :=
              [ ("Regression Slope (scf/psia)", ",.2f", s);
                ("Estimated OGIP (scf)", ",.2f", ogip);
                ("R-Squared", ".4f", r2) ]%string in
            if write_ok then
              show (showinfo "Report Saved"
                      ("Report saved successfully:" ++ newline ++ file_path))
                   (mkState (production_data st) (reg_canvas st)
                            (estimated_ogip_scf st) (slope st) (r_squared st)
                            (messages st) (files st ++ [(file_path, df)]))
            else
              show (showerror_exn "Save Error" "Failed to save report: " OSError) st
        | _, _ =>
            show (showerror_exn "Save Error" "Failed to save report: " TypeError) st
        end
  end.

(** ** Row by row: what the column operations compute

    The derived values of one row, written as the formulas of the method:
    [x = p_i/z_i - pressure/Z] and [y] the coerced cumulative production. *)

Definition x_of (ratio : float) (r : row) : float :=
  fsub ratio (fdiv (Pressure r) (Z r)).

Definition y_of (r : row) : float := to_numeric_coerce (CumProduction r).

Definition set_xy (ratio : float) (r : row) : row :=
  mkRow (Date r) (Pressure r) (Z r) (CumProduction r)
        (Some (x_of ratio r)) (Some (y_of r)).

(** The row is kept by the filter: neither derived value is NaN. *)
Definition survives (ratio : float) (r : row) : bool :=
  negb (isna (x_of ratio r)) && negb (isna (y_of r)).

(** The three results an invocation leaves in the module-level variables. *)
Definition results (st : State) : option float * option float * option float :=
  (slope st, estimated_ogip_scf st, r_squared st).

(** The sum the degenerate test inspects (line 101). *)
Definition sum_sq_x (df : DataFrame) : float := np_sum (arr_sq (values x df)).

(** ** The least-squares quantities, over exact points

    A finite point is a pair [(x, y)] of rationals.  These are the sums of
    the method as a text book writes them; the theorems relate them to what
    the array code computes. *)

Fixpoint sum_over (f : Q -> Q -> Q) (pts : list (Q * Q)) : Q :=
  match pts with
  | [] => 0
  | (a, b) :: t => f a b + sum_over f t
  end.

Definition sum_xx : list (Q * Q) -> Q := sum_over (fun a _ => a * a).


(** The arrays holding the coordinates of finite points. *)
Definition xs_of (pts : list (Q * Q)) : ndarray := map (fun p => Fin (fst p)) pts.
Definition ys_of (pts : list (Q * Q)) : ndarray := map (fun p => Fin (snd p)) pts.

(** ** Sample datasets *)

(** The state right after a dataset was loaded: no result yet. *)
Definition loaded (df : DataFrame) : State :=
  mkState (Some df) None None None None [] [].

(** A declining pressure history with a constant Z-factor of one. *)
Definition decline_r0 : row := record "2020-01-01" (Fin 4000) (Fin 1) (CNum (Fin 0)).
Definition decline_rs : list row :=
  [ record "2020-07-01" (Fin 3000) (Fin 1) (CNum (Fin 1));
    record "2021-01-01" (Fin 2000) (Fin 1) (CNum (Fin 3)) ].
Definition decline : DataFrame := decline_r0 :: decline_rs.

(** The points the transform derives from [decline]. *)
Definition decline_points : list (Q * Q) := [ (0, 0); (1000, 1); (2000, 3) ].

(** No decline at all: every record has the initial pressure and Z. *)
Definition flat_r0 : row := record "2020-01-01" (Fin 3000) (Fin 1) (CNum (Fin 0)).
Definition flat_rs : list row :=
  [ record "2020-07-01" (Fin 3000) (Fin 1) (CNum (Fin 5)) ].
Definition flat : DataFrame := flat_r0 :: flat_rs.

(** The history of [decline] behind a first record whose cumulative
    production is not a number. *)
Definition text_first_r0 : row :=
  record "2019-07-01" (Fin 5000) (Fin 1) (CText "n/a").
Definition text_first : DataFrame := text_first_r0 :: decline.

(** The history of [decline] with such a record between two others. *)
Definition text_row : row :=
  record "2020-04-01" (Fin 3500) (Fin 1) (CText "n/a").
Definition text_middle : DataFrame :=
  decline_r0 :: [] ++ text_row :: decline_rs.

(** A first record with a Z-factor of zero, and one with a pressure of
    zero. *)
Definition zero_z_r0 : row := record "2020-01-01" (Fin 4000) (Fin 0) (CNum (Fin 0)).
Definition zero_z : DataFrame := zero_z_r0 :: decline_rs.

Definition zero_pressure_r0 : row :=
  record "2020-01-01" (Fin 0) (Fin 1) (CNum (Fin 0)).
Definition zero_pressure : DataFrame := zero_pressure_r0 :: decline_rs.

(** The state after a successful regression on [decline] and the load of
    the flat history. *)
Definition flat_after_decline : State :=
  set_production_data flat (perform_regression_analysis (loaded decline)).

Definition regression_error : message :=
  showerror "Regression Error"
            "Sum of squares of x is zero; cannot perform regression.".

Definition calculation_error (e : exn) : message :=
  showerror_exn "Calculation Error" "Error in regression: " e.

(** ** Further notions used by the properties of the regression and the
    report *)

Definition no_data : message :=
  showerror "No Data" "Please load a CSV file first.".

(** The three result variables are assigned together: all unset, or all
    set. *)
Definition results_consistent (st : State) : Prop :=
  match slope st, estimated_ogip_scf st, r_squared st with
  | None, None, None => True
  | Some _, Some _, Some _ => True
  | _, _, _ => False
  end.

Definition is_inf (a : float) : bool :=
  match a with PInf | NInf => true | _ => false end.

(** A history none of whose cumulative productions is a number. *)
Definition all_text : DataFrame :=
  [ record "2020-01-01" (Fin 4000) (Fin 1) (CText "n/a");
    record "2020-07-01" (Fin 3000) (Fin 1) (CText "-") ].

(** The history of [decline] with a Z-factor of zero in its second
    record. *)
Definition zero_z_later_rs : list row :=
  [ record "2020-07-01" (Fin 3000) (Fin 0) (CNum (Fin 1));
    record "2021-01-01" (Fin 2000) (Fin 1) (CNum (Fin 3)) ].
Definition zero_z_later : DataFrame := decline_r0 :: zero_z_later_rs.

(** ** The loader and the column mapper

    [load_production_data] and [select_columns] handle the frame as a table
    of labelled columns, whatever the columns hold; both touch no module
    variable but [production_data].  A frame is the list of its columns, in
    order; labels may repeat.  The answers of the outside world are
    arguments: the path of the file dialog (empty when cancelled) and what
    [pd.read_csv] returns for it, a frame or the text of the exception it
    raises. *)

Module Loader.

Record column : Type := mkColumn {
  label : string;
  content : list cell
}.

Definition frame : Type := list column.

(** [list(df.columns)]. *)
Definition columns (df : frame) : list string := map label df.

Record State : Type := mkState {
  production_data : option frame;
  messages : list message
}.

Definition show (m : message) (st : State) : State :=
  mkState (production_data st) (messages st ++ [m]).

Definition required_columns : list string :=
  [ "Date"; "Pressure"; "Z"; "CumProduction" ]%string.

(** [[col for col in required_columns if col not in data.columns]]. *)
Definition missing_columns (data : frame) : list string :=
  filter (fun col => negb (existsb (String.eqb col) (columns data)))
         required_columns.

Definition load_production_data
           (file_path : string) (read_csv : string + frame) (st : State)
  : State :=
  if String.eqb file_path EmptyString then st
  else
    match read_csv with
    | inl e => show (showerror "Load Error" ("Error loading data: " ++ e)) st
    | inr data =>
        match missing_columns data with
        | [] =>
            show (showinfo "Data Loaded"
                    ("Production data loaded successfully from:"
                       ++ newline ++ file_path))
                 (mkState (Some data) (messages st))
        | missing =>
            show (showerror "Missing Columns"
                    ("Missing columns: " ++ String.concat ", " missing))
                 st
        end
    end.

(** A Python [dict] from strings to strings, in insertion order: setting a
    key that is present replaces its value. *)
Definition dict : Type := list (string * string).

Fixpoint dict_set (k v : string) (d : dict) : dict :=
  match d with
  | [] => [(k, v)]
  | (k', v') :: t =>
      if String.eqb k' k then (k, v) :: t else (k', v') :: dict_set k v t
  end.

Fixpoint dict_get (k : string) (d : dict) : option string :=
  match d with
  | [] => None
  | (k', v') :: t => if String.eqb k' k then Some v' else dict_get k t
  end.

(** [df.rename(columns=d)]: a new frame; every label that is a key of [d]
    is replaced by its value, the contents stay. *)
Definition rename (d : dict) (df : frame) : frame :=
  map (fun col =>
         mkColumn (match dict_get (label col) d with
                   | Some v => v
                   | None => label col
                   end)
                  (content col))
      df.

(** The selection window: the labels on offer and the three variables of
    its menus. *)
Record window : Type := mkWindow {
  column_names : list string;
  pressure_var : string;
  z_var : string;
  production_var : string
}.

Inductive error : Type :=
| IndexError
| AttributeError.

(** [select_columns] up to the point where the window is shown: its
    variables start at the first three labels, and indexing raises when
    there are fewer. *)
Definition select_columns (st : State) : State * (error + option window) :=
  match production_data st with
  | None => (show no_data st, inr None)
  | Some df =>
      let column_names := columns df in
      match nth_error column_names 0, nth_error column_names 1,
            nth_error column_names 2 with
      | Some a, Some b, Some c =>
          (st, inr (Some (mkWindow column_names a b c)))
      | _, _, _ => (st, inl IndexError)
      end
  end.

(** The button of the window, with the variables as they stand. *)
Definition confirm_selection (w : window) (st : State) : error + State :=
  match production_data st with
  | None => inl AttributeError
  | Some df =>
      let d :=
        dict_set (production_var w) "CumProduction"
          (dict_set (z_var w) "Z"
             (dict_set (pressure_var w) "Pressure" [])) in
      inr (show (showinfo "Columns Set" "Columns mapped successfully.")
                (mkState (Some (rename d df)) (messages st)))
  end.

(** The label [l] after the renaming chosen in a window with the variables
    [p], [z] and [c]. *)
Definition relabel (p z c l : string) : string :=
  if String.eqb l c then "CumProduction"
  else if String.eqb l z then "Z"
  else if String.eqb l p then "Pressure"
  else l.

(** The states the program can be in: it starts without a dataset, and
    then the user loads files and confirms selections. *)
Inductive reachable : State -> Prop :=
| reach_start : reachable (mkState None [])
| reach_load file_path read_csv st :
    reachable st -> reachable (load_production_data file_path read_csv st)
| reach_select st :
    reachable st -> reachable (fst (select_columns st))
| reach_confirm w st st' :
    reachable st -> confirm_selection w st = inr st' -> reachable st'.

End Loader.

(** A table in the canonical column order, with one more column. *)
Definition canonical_table : Loader.frame :=
  [ Loader.mkColumn "Date" [CText "2020-01-01"; CText "2020-07-01"];
    Loader.mkColumn "Pressure" [CNum (Fin 4000); CNum (Fin 3000)];
    Loader.mkColumn "Z" [CNum (Fin 1); CNum (Fin 1)];
    Loader.mkColumn "CumProduction" [CNum (Fin 0); CNum (Fin 1)];
    Loader.mkColumn "Well" [CText "A-1"; CText "A-1"] ].

(** A history on which no operation of the regression rounds: the sums are
    integers and the slope is [2 ^ -10]. *)
Definition dyadic_r0 : row := record "2020-01-01" (Fin 4096) (Fin 1) (CNum (Fin 0)).
Definition dyadic_rs : list row :=
  [ record "2020-07-01" (Fin 3072) (Fin 1) (CNum (Fin 1));
    record "2021-01-01" (Fin 2048) (Fin 1) (CNum (Fin 2)) ].
Definition dyadic : DataFrame := dyadic_r0 :: dyadic_rs.

(** ** The fit in binary64

    Lines 101 to 111 over the arrays [x] and [y], with the arithmetic of the
    binary64 format: 53 bits of precision, infinities at exponent 1024.
    [np.sum] adds from zero, left to right, which is the order of NumPy's
    reduction on arrays of fewer than eight elements; [x ** 2] is the
    product [x * x]; the integers 0 and 1 of the source and the length in
    [np.mean] are converted to binary64. *)

Module Binary64.

Import SpecFloat.

Definition prec : BinNums.Z := 53%Z.
Definition emax : BinNums.Z := 1024%Z.

Definition float64 : Type := spec_float.

(** The binary64 value nearest to an integer. *)
Definition of_Z (n : BinNums.Z) : float64 := binary_normalize prec emax n 0 false.

Definition zero : float64 := S754_zero false.
Definition one : float64 := of_Z 1.

Definition add : float64 -> float64 -> float64 := SFadd prec emax.
Definition sub : float64 -> float64 -> float64 := SFsub prec emax.
Definition mul : float64 -> float64 -> float64 := SFmul prec emax.
Definition div : float64 -> float64 -> float64 := SFdiv prec emax.

(** [a == b]: NaN equals nothing, the two zeros are equal. *)
Definition eqb : float64 -> float64 -> bool := SFeqb.

Definition ndarray : Type := list float64.

Definition np_sum (a : ndarray) : float64 := fold_left add a zero.

Definition np_mean (a : ndarray) : float64 :=
  div (np_sum a) (of_Z (Z.of_nat (List.length a))).

Fixpoint zip_with (f : float64 -> float64 -> float64) (a b : ndarray)
  : ndarray :=
  match a, b with
  | u :: a', v :: b' => f u v :: zip_with f a' b'
  | _, _ => []
  end.

Definition arr_mul : ndarray -> ndarray -> ndarray := zip_with mul.
Definition arr_sub : ndarray -> ndarray -> ndarray := zip_with sub.
Definition arr_sq (a : ndarray) : ndarray := map (fun v => mul v v) a.
Definition scalar_mul (c : float64) (a : ndarray) : ndarray := map (mul c) a.
Definition sub_scalar (a : ndarray) (c : float64) : ndarray :=
  map (fun v => sub v c) a.

(** What a fit assigns and plots. *)
Record regression : Type := mkRegression {
  slope : float64;
  estimated_ogip_scf : float64;
  r_squared : float64;
  y_pred : ndarray
}.

(** Lines 101 to 111; [None] is the return of line 103. *)
Definition fit (x y : ndarray) (initial_pressure : float64)
  : option regression :=
  if eqb (np_sum (arr_sq x)) zero then None
  else
    let slope := div (np_sum (arr_mul x y)) (np_sum (arr_sq x)) in
    let estimated_ogip_scf := mul slope initial_pressure in
    let y_pred := scalar_mul slope x in
    let residuals := arr_sub y y_pred in
    let ss_res := np_sum (arr_sq residuals) in
    let ss_tot := np_sum (arr_sq (sub_scalar y (np_mean y))) in
    let r_squared :=
      if negb (eqb ss_tot zero) then sub one (div ss_res ss_tot) else zero in
    Some (mkRegression slope estimated_ogip_scf r_squared y_pred).

(** The rational a finite binary64 value stands for. *)
Definition exact (f : float64) : option Q :=
  match f with
  | S754_zero _ => Some 0
  | S754_finite s m e =>
      Some ((if s then - inject_Z (Zpos m) else inject_Z (Zpos m)) * 2 ^ e)
  | S754_infinity _ | S754_nan => None
  end.


Definition small_y : ndarray := [ of_Z 0; of_Z 1; of_Z 2 ].


(** [x = 0, 1024, 2048], the [x] of the history [dyadic]. *)
Definition dyadic_x : ndarray := [ of_Z 0; of_Z 1024; of_Z 2048 ].


End Binary64.

(** ** Structural lemmas *)

Section Columns.

Variable ratio : float.

Lemma with_xy_map (df : DataFrame) :
  with_xy ratio df = map (set_xy ratio) df.
Proof.
  unfold with_xy.
  induction df as [|r df IH]; simpl; [reflexivity|].
  f_equal. exact IH.
Qed.

Lemma dropna_set_xy (df : DataFrame) :
  dropna_xy (map (set_xy ratio) df)
  = map (set_xy ratio) (filter (survives ratio) df).
Proof.
  unfold dropna_xy.
  induction df as [|r df IH]; simpl; [reflexivity|].
  unfold survives at 1.
  destruct (negb (isna (x_of ratio r)) && negb (isna (y_of r)));
    simpl; rewrite IH; reflexivity.
Qed.

Lemma values_x_set_xy (df : DataFrame) :
  values x (map (set_xy ratio) df) = map (x_of ratio) df.
Proof. unfold values. rewrite map_map. reflexivity. Qed.

Lemma values_y_set_xy (df : DataFrame) :
  values y (map (set_xy ratio) df) = map y_of df.
Proof. unfold values. rewrite map_map. reflexivity. Qed.

Lemma set_xy_idem (r : row) : set_xy ratio (set_xy ratio r) = set_xy ratio r.
Proof. reflexivity. Qed.

Lemma survives_set_xy (r : row) :
  survives ratio (set_xy ratio r) = survives ratio r.
Proof. reflexivity. Qed.

Lemma filter_survivors_again (df : DataFrame) :
  filter (survives ratio) (map (set_xy ratio) (filter (survives ratio) df))
  = map (set_xy ratio) (filter (survives ratio) df).
Proof.
  induction df as [|r df IH]; simpl; [reflexivity|].
  destruct (survives ratio r) eqn:E; simpl; [|exact IH].
  rewrite survives_set_xy, E, IH. reflexivity.
Qed.

End Columns.

Lemma transform_cons (r0 : row) (rs : list row) :
  transform (r0 :: rs)
  = match py_truediv (Pressure r0) (Z r0) with
    | inl e => inl e
    | inr ratio =>
        inr (map (set_xy ratio) (filter (survives ratio) (r0 :: rs)))
    end.
Proof.
  unfold transform.
  destruct (py_truediv (Pressure r0) (Z r0)) as [e|ratio]; [reflexivity|].
  rewrite with_xy_map, dropna_set_xy. reflexivity.
Qed.

Lemma py_truediv_inr (a b ratio : float) :
  py_truediv a b = inr ratio -> feqb b fzero = false /\ ratio = fdiv a b.
Proof.
  unfold py_truediv. destruct (feqb b fzero); [discriminate|].
  intros H. injection H as <-. split; reflexivity.
Qed.

(** The three ways an invocation on a frame with rows can end. *)
Lemma perform_raises (st : State) (r0 : row) (rs : list row) (e : exn) :
  production_data st = Some (r0 :: rs) ->
  transform (r0 :: rs) = inl e ->
  perform_regression_analysis st
  = show (showerror_exn "Calculation Error" "Error in regression: " e) st.
Proof.
  intros Hd Ht. unfold perform_regression_analysis. rewrite Hd, Ht.
  reflexivity.
Qed.

Lemma perform_degenerate (st : State) (r0 : row) (rs : list row)
      (df' : DataFrame) :
  production_data st = Some (r0 :: rs) ->
  transform (r0 :: rs) = inr df' ->
  feqb (sum_sq_x df') fzero = true ->
  perform_regression_analysis st
  = show (showerror "Regression Error"
            "Sum of squares of x is zero; cannot perform regression.")
         (set_production_data df' st).
Proof.
  intros Hd Ht Hz. unfold perform_regression_analysis. rewrite Hd, Ht.
  unfold sum_sq_x in Hz. rewrite Hz. reflexivity.
Qed.

Lemma perform_fits (st : State) (r0 : row) (rs : list row) (df' : DataFrame) :
  production_data st = Some (r0 :: rs) ->
  transform (r0 :: rs) = inr df' ->
  feqb (sum_sq_x df') fzero = false ->
  perform_regression_analysis st
  = let xs := values x df' in
    let ys := values y df' in
    let s := fit_slope xs ys in
    let ogip := fmul s (Pressure r0) in
    let r2 := fit_r_squared s xs ys in
    mkState (Some df') (Some (mkFigure xs ys (scalar_mul s xs) s))
            (Some ogip) (Some s) (Some r2)
            (messages st ++ [showinfo_results s ogip r2]) (files st).
Proof.
  intros Hd Ht Hz. unfold perform_regression_analysis. rewrite Hd, Ht.
  unfold sum_sq_x in Hz. rewrite Hz. reflexivity.
Qed.

(** ** The array code on finite points *)

Lemma fold_fadd_fin (f : Q -> Q -> Q) (pts : list (Q * Q)) (a : Q) :
  exists q,
    fold_left fadd (map (fun p => Fin (f (fst p) (snd p))) pts) (Fin a) = Fin q
    /\ q == a + sum_over f pts.
Proof.
  revert a. induction pts as [|[u v] t IH]; intros a; simpl.
  - exists a. split; [reflexivity|ring].
  - destruct (IH (a + f u v)) as [q [Hq Hs]].
    exists q. split; [exact Hq|]. rewrite Hs. ring.
Qed.

Lemma np_sum_fin (f : Q -> Q -> Q) (pts : list (Q * Q)) :
  exists q,
    np_sum (map (fun p => Fin (f (fst p) (snd p))) pts) = Fin q
    /\ q == sum_over f pts.
Proof.
  destruct (fold_fadd_fin f pts 0) as [q [Hq Hs]].
  exists q. split; [exact Hq|]. rewrite Hs. ring.
Qed.

Lemma arr_sq_xs (pts : list (Q * Q)) :
  arr_sq (xs_of pts) = map (fun p => Fin ((fun a _ => a * a) (fst p) (snd p))) pts.
Proof. unfold arr_sq, xs_of. rewrite map_map. reflexivity. Qed.

Lemma sum_sq_finite (pts : list (Q * Q)) :
  exists q, np_sum (arr_sq (xs_of pts)) = Fin q /\ q == sum_xx pts.
Proof. rewrite arr_sq_xs. exact (np_sum_fin (fun a _ => a * a) pts). Qed.

(** ** Least squares through the origin *)





(** ** The claims about the fit *)






(** C3.  Whenever an invocation fits (the transform returns and the sum of
    squared [x] is not zero), the stored OGIP is the stored slope times the
    pressure of the first record, and these are the values it reports.  In
    binary64 the fit returns as OGIP the rounded product of the slope it
    returns and the initial pressure it was handed. *)
Theorem ogip_is_slope_times_initial_pressure
        (st : State) (r0 : row) (rs : list row) (df' : DataFrame) :
  production_data st = Some (r0 :: rs) ->
  transform (r0 :: rs) = inr df' ->
  feqb (sum_sq_x df') fzero = false ->
  exists s r2,
    slope (perform_regression_analysis st) = Some s
    /\ estimated_ogip_scf (perform_regression_analysis st)
       = Some (fmul s (Pressure r0))
    /\ messages (perform_regression_analysis st)
       = messages st ++ [showinfo_results s (fmul s (Pressure r0)) r2]
    /\ forall xs ys p r,
        Binary64.fit xs ys p = Some r ->
        Binary64.estimated_ogip_scf r
        = SpecFloat.SFmul 53 1024 (Binary64.slope r) p.
Proof.
  intros Hd Ht Hnz.
  rewrite (perform_fits st r0 rs df' Hd Ht Hnz). cbn.
  eexists. eexists. split; [reflexivity|]. split; [reflexivity|].
  split; [reflexivity|].
  intros xs ys p r Hfit. unfold Binary64.fit in Hfit.
  destruct (Binary64.eqb (Binary64.np_sum (Binary64.arr_sq xs)) Binary64.zero);
    [discriminate Hfit|].
  injection Hfit as <-. reflexivity.
Qed.

Lemma ogip_is_slope_times_initial_pressure_witness :
  (exists s ogip,
      slope (perform_regression_analysis (loaded dyadic)) = Some (Fin s)
      /\ estimated_ogip_scf (perform_regression_analysis (loaded dyadic))
         = Some (Fin ogip)
      /\ s == 1 # 1024
      /\ ogip == 4)
  /\ (exists r,
         Binary64.fit Binary64.dyadic_x Binary64.small_y (Binary64.of_Z 4096)
         = Some r
         /\ Binary64.slope r
            = SpecFloat.S754_finite false 4503599627370496 (-62)
         /\ Binary64.estimated_ogip_scf r
            = SpecFloat.S754_finite false 4503599627370496 (-50)).
Proof.
  destruct (ogip_is_slope_times_initial_pressure
              (loaded dyadic) dyadic_r0 dyadic_rs
              (map (set_xy (Fin 4096)) dyadic) eq_refl eq_refl eq_refl)
    as [s [r2 [Hs [Ho [_ Hb]]]]].
  split.
  - assert (Hv : slope (perform_regression_analysis (loaded dyadic))
                 = Some (Fin (5120 # 5242880))) by reflexivity.
    rewrite Hv in Hs. injection Hs as <-.
    exists (5120 # 5242880), (5120 * 4096 # 5242880 * 1).
    split; [exact Hv|]. split; [exact Ho|]. split; reflexivity.
  - destruct (Binary64.fit Binary64.dyadic_x Binary64.small_y
                           (Binary64.of_Z 4096)) as [r|] eqn:Hfit;
      [|vm_compute in Hfit; discriminate Hfit].
    pose proof (Hb _ _ _ r Hfit) as Hogip.
    exists r. split; [reflexivity|].
    rewrite Hogip. vm_compute in Hfit. injection Hfit as <-.
    split; [reflexivity|]. vm_compute. reflexivity.
Defined.





(** ** The claims about the transform *)



(** ** The degenerate branch *)

(** C5.  When the transform returns and the sum of squared [x] over the
    surviving points is zero, the invocation reports the error "Regression
    Error" and nothing else, and stores no result: slope, OGIP and R-squared
    are what they were, and so is the plot. *)
Theorem degenerate_regression_reported
        (st : State) (r0 : row) (rs : list row) (df' : DataFrame) :
  production_data st = Some (r0 :: rs) ->
  transform (r0 :: rs) = inr df' ->
  feqb (sum_sq_x df') fzero = true ->
  messages (perform_regression_analysis st) = messages st ++ [regression_error]
  /\ results (perform_regression_analysis st) = results st
  /\ reg_canvas (perform_regression_analysis st) = reg_canvas st.
Proof.
  intros Hd Ht Hz.
  rewrite (perform_degenerate st r0 rs df' Hd Ht Hz).
  repeat split.
Qed.

Lemma degenerate_regression_reported_witness :
  messages (perform_regression_analysis (loaded flat)) = [regression_error]
  /\ results (perform_regression_analysis (loaded flat)) = (None, None, None)
  /\ reg_canvas (perform_regression_analysis (loaded flat)) = None.
Proof.
  apply (degenerate_regression_reported
           (loaded flat) flat_r0 flat_rs (map (set_xy (Fin 3000)) flat));
    reflexivity.
Defined.

(** A history without decline is degenerate: when every surviving [x] is a
    finite zero, the sum of their squares is zero. *)
Lemma no_decline_sum_zero (pts : list (Q * Q)) :
  (forall p, In p pts -> fst p == 0) -> sum_xx pts == 0.
Proof.
  unfold sum_xx. induction pts as [|[a b] t IH]; intros Hall; simpl; [reflexivity|].
  rewrite IH by (intros p Hp; apply Hall; right; exact Hp).
  pose proof (Hall (a, b) (or_introl eq_refl)) as Ha. cbn [fst] in Ha.
  rewrite Ha. ring.
Qed.

Lemma no_decline_degenerate (df' : DataFrame) (pts : list (Q * Q)) :
  values x df' = xs_of pts ->
  (forall p, In p pts -> fst p == 0) ->
  feqb (sum_sq_x df') fzero = true.
Proof.
  intros Hx Hall. unfold sum_sq_x. rewrite Hx.
  destruct (sum_sq_finite pts) as [q [Hq Hqs]]. rewrite Hq. simpl.
  apply Qeq_bool_iff. rewrite Hqs. apply no_decline_sum_zero. exact Hall.
Qed.

(** C10.  When an invocation takes the degenerate branch, the three result
    variables keep the values of an earlier successful invocation, and a
    following [save_report] writes exactly those values and announces the
    report as saved, with no error. *)
Theorem stale_results_saved
        (st : State) (r0 : row) (rs : list row) (df' : DataFrame)
        (s ogip r2 : float) (file_path : string) :
  production_data st = Some (r0 :: rs) ->
  transform (r0 :: rs) = inr df' ->
  feqb (sum_sq_x df') fzero = true ->
  slope st = Some s ->
  estimated_ogip_scf st = Some ogip ->
  r_squared st = Some r2 ->
  String.eqb file_path EmptyString = false ->
  let st1 := perform_regression_analysis st in
  results st1 = (Some s, Some ogip, Some r2)
  /\ files (save_report file_path true st1)
     = files st ++ [(file_path,
                     [ ("Regression Slope (scf/psia)", ",.2f", s);
                       ("Estimated OGIP (scf)", ",.2f", ogip);
                       ("R-Squared", ".4f", r2) ]%string)]
  /\ messages (save_report file_path true st1)
     = messages st1
       ++ [showinfo "Report Saved"
             ("Report saved successfully:" ++ newline ++ file_path)].
Proof.
  intros Hd Ht Hz Hs Ho Hr Hp st1. subst st1.
  rewrite (perform_degenerate st r0 rs df' Hd Ht Hz).
  unfold save_report, results. cbn [estimated_ogip_scf slope r_squared show
    set_production_data files messages production_data reg_canvas].
  rewrite Hs, Ho, Hr, Hp. cbn. repeat split.
Qed.

Lemma stale_results_saved_witness :
  let s := fit_slope (xs_of decline_points) (ys_of decline_points) in
  let st1 := perform_regression_analysis flat_after_decline in
  results st1
  = (Some s, Some (fmul s (Fin 4000)),
     Some (fit_r_squared s (xs_of decline_points) (ys_of decline_points)))
  /\ files (save_report "report.xlsx" true st1)
     = [("report.xlsx"%string,
         [ ("Regression Slope (scf/psia)", ",.2f", s);
           ("Estimated OGIP (scf)", ",.2f", fmul s (Fin 4000));
           ("R-Squared", ".4f",
            fit_r_squared s (xs_of decline_points) (ys_of decline_points))
         ]%string)]
  /\ messages (save_report "report.xlsx" true st1)
     = messages st1
       ++ [showinfo "Report Saved"
             ("Report saved successfully:" ++ newline ++ "report.xlsx")].
Proof.
  intros s.
  apply (stale_results_saved
           flat_after_decline flat_r0 flat_rs (map (set_xy (Fin 3000)) flat)
           s (fmul s (Fin 4000))
           (fit_r_squared s (xs_of decline_points) (ys_of decline_points))
           "report.xlsx");
    reflexivity.
Defined.

(** ** The reference point *)

Lemma fdiv_nan (a b : float) : isna a || isna b = true -> fdiv a b = NaN.
Proof.
  destruct a, b; simpl; intros H; try reflexivity; discriminate.
Qed.

Lemma survives_nan (r : row) : survives NaN r = false.
Proof. reflexivity. Qed.

Lemma filter_survives_nan (df : DataFrame) : filter (survives NaN) df = [].
Proof.
  induction df as [|r df IH]; simpl; [reflexivity|exact IH].
Qed.

(** C6, counterexample.  The first record of [zero_pressure] has a pressure
    of zero, and the invocation neither fails nor reports an error: it
    reports a slope, an OGIP and an R-squared. *)
Lemma zero_reference_pressure_proceeds :
  Pressure zero_pressure_r0 = Fin 0
  /\ production_data (loaded zero_pressure)
     = Some (zero_pressure_r0 :: decline_rs)
  /\ exists s ogip r2,
      messages (perform_regression_analysis (loaded zero_pressure))
      = [showinfo_results (Fin s) (Fin ogip) (Fin r2)]
      /\ results (perform_regression_analysis (loaded zero_pressure))
         = (Some (Fin s), Some (Fin ogip), Some (Fin r2)).
Proof.
  split; [reflexivity|]. split; [reflexivity|].
  do 3 eexists. split; vm_compute; reflexivity.
Qed.

(** C6, amended.  On a dataset with rows: when the Z-factor of the first
    record is zero, the division raises and the invocation reports it
    through the general handler as "Calculation Error", changing nothing
    else; when it is not zero and the pressure or the Z-factor of the first
    record is undefined (NaN), every record is dropped and the invocation
    reports "Regression Error"; a first pressure of zero over a finite
    non-zero Z-factor is no error: the transform returns, with a reference
    ratio of zero. *)
Theorem reference_point_errors (st : State) (r0 : row) (rs : list row) :
  production_data st = Some (r0 :: rs) ->
  (feqb (Z r0) fzero = true ->
   perform_regression_analysis st
   = show (calculation_error ZeroDivisionError) st)
  /\ (feqb (Z r0) fzero = false ->
      isna (Pressure r0) || isna (Z r0) = true ->
      perform_regression_analysis st
      = show regression_error (set_production_data [] st))
  /\ (forall p z,
        Pressure r0 = Fin p -> Z r0 = Fin z -> p == 0 -> ~ z == 0 ->
        exists q,
          q == 0
          /\ transform (r0 :: rs)
             = inr (map (set_xy (Fin q)) (filter (survives (Fin q)) (r0 :: rs)))).
Proof.
  intros Hd. split; [|split].
  - intros Hz. apply (perform_raises st r0 rs ZeroDivisionError Hd).
    unfold transform, py_truediv. rewrite Hz. reflexivity.
  - intros Hz Hna.
    apply (perform_degenerate st r0 rs [] Hd); [|reflexivity].
    rewrite transform_cons. unfold py_truediv. rewrite Hz.
    rewrite (fdiv_nan _ _ Hna), filter_survives_nan. reflexivity.
  - intros p z Hp Hzv Hp0 Hz0.
    exists (p / z). split; [rewrite Hp0; field; exact Hz0|].
    rewrite transform_cons. unfold py_truediv. rewrite Hp, Hzv. simpl.
    destruct (Qeq_bool z 0) eqn:E; [|reflexivity].
    apply Qeq_bool_iff in E. contradiction.
Qed.

Lemma reference_point_errors_witness :
  perform_regression_analysis (loaded zero_z)
  = show (calculation_error ZeroDivisionError) (loaded zero_z).
Proof.
  apply (reference_point_errors (loaded zero_z) zero_z_r0 decline_rs eq_refl).
  reflexivity.
Defined.

(** ** The dataset after an invocation *)

(** C7, counterexample.  After an invocation on [text_first] the dataset is
    not what it was: the first record is gone and the others carry two more
    columns. *)
Lemma dataset_not_preserved :
  production_data (perform_regression_analysis (loaded text_first))
  = Some (map (set_xy (Fin 5000)) decline)
  /\ production_data (perform_regression_analysis (loaded text_first))
     <> production_data (loaded text_first).
Proof.
  split; [reflexivity|].
  intros H. apply (f_equal (option_map (@List.length row))) in H.
  vm_compute in H. discriminate H.
Qed.

(** C7, amended.  An invocation rewrites the dataset in place.  When the
    dataset has rows and the reference division returns, the dataset
    afterwards holds the records whose [x] and [y] are both not NaN, in
    their order, each with its four input columns unchanged and with the
    columns [x] and [y] set to the computed values.  The dataset is left as
    it was when it is absent or empty, or when the division raises. *)
Theorem dataset_rewritten_in_place (st : State) :
  production_data (perform_regression_analysis st)
  = match production_data st with
    | Some (r0 :: rs) =>
        match py_truediv (Pressure r0) (Z r0) with
        | inl _ => Some (r0 :: rs)
        | inr ratio =>
            Some (map (set_xy ratio) (filter (survives ratio) (r0 :: rs)))
        end
    | other => other
    end.
Proof.
  unfold perform_regression_analysis.
  destruct (production_data st) as [[|r0 rs]|] eqn:Hd;
    cbv beta iota; try (cbn; exact Hd).
  rewrite transform_cons.
  destruct (py_truediv (Pressure r0) (Z r0)) as [e|ratio];
    cbv beta iota; [cbn; exact Hd|].
  match goal with |- context [if ?c then _ else _] => destruct c end;
    reflexivity.
Qed.

(** ** Running the regression again *)

(** Once the reference record is kept, the filtered frame is a fixed point
    of the transform. *)
Lemma transform_again (r0 : row) (rs : list row) (ratio : float) :
  py_truediv (Pressure r0) (Z r0) = inr ratio ->
  survives ratio r0 = true ->
  transform (map (set_xy ratio) (filter (survives ratio) (r0 :: rs)))
  = inr (map (set_xy ratio) (filter (survives ratio) (r0 :: rs))).
Proof.
  intros Hdiv Hkeep.
  pose proof (filter_survivors_again ratio (r0 :: rs)) as Hfix.
  cbn [filter] in Hfix |- *. rewrite Hkeep in Hfix |- *.
  cbn [map] in Hfix |- *.
  rewrite transform_cons. cbn [Pressure Z set_xy]. rewrite Hdiv.
  rewrite Hfix. cbn [map]. rewrite map_map.
  reflexivity.
Qed.

(** C8, counterexample.  On [text_first] the first invocation drops the
    first record, so the second one takes its reference point from another
    record and stores another slope. *)
Lemma second_run_differs :
  exists s1 s2,
    slope (perform_regression_analysis (loaded text_first)) = Some (Fin s1)
    /\ slope (perform_regression_analysis
                (perform_regression_analysis (loaded text_first)))
       = Some (Fin s2)
    /\ ~ s1 == s2.
Proof.
  do 2 eexists. split; [vm_compute; reflexivity|].
  split; [vm_compute; reflexivity|].
  unfold Qeq. cbn. discriminate.
Qed.

(** C8, amended.  When the first record of the dataset is kept by the
    filter of the first invocation (its [x] and [y] are not NaN), a second
    invocation right after the first leaves the same slope, OGIP and
    R-squared as the first. *)
Theorem rerun_same_results (st : State) (r0 : row) (rs : list row) :
  production_data st = Some (r0 :: rs) ->
  (forall ratio,
      py_truediv (Pressure r0) (Z r0) = inr ratio -> survives ratio r0 = true) ->
  results (perform_regression_analysis (perform_regression_analysis st))
  = results (perform_regression_analysis st).
Proof.
  intros Hd Hkeep.
  destruct (py_truediv (Pressure r0) (Z r0)) as [e|ratio] eqn:Hdiv.
  - assert (Ht : transform (r0 :: rs) = inl e)
      by (rewrite transform_cons, Hdiv; reflexivity).
    rewrite (perform_raises st r0 rs e Hd Ht).
    rewrite (perform_raises (show _ st) r0 rs e Hd Ht).
    reflexivity.
  - specialize (Hkeep ratio eq_refl).
    set (df' := map (set_xy ratio) (filter (survives ratio) (r0 :: rs))).
    assert (Ht : transform (r0 :: rs) = inr df')
      by (rewrite transform_cons, Hdiv; reflexivity).
    set (rs' := map (set_xy ratio) (filter (survives ratio) rs)).
    assert (Hshape : df' = set_xy ratio r0 :: rs').
    { unfold df', rs'. cbn [filter]. rewrite Hkeep. reflexivity. }
    assert (Ht' : transform (set_xy ratio r0 :: rs') = inr df').
    { rewrite <- Hshape. exact (transform_again r0 rs ratio Hdiv Hkeep). }
    destruct (feqb (sum_sq_x df') fzero) eqn:Hz.
    + rewrite (perform_degenerate st r0 rs df' Hd Ht Hz).
      rewrite (perform_degenerate _ (set_xy ratio r0) rs' df');
        [reflexivity|cbn; f_equal; exact Hshape|exact Ht'|exact Hz].
    + rewrite (perform_fits st r0 rs df' Hd Ht Hz).
      rewrite (perform_fits _ (set_xy ratio r0) rs' df');
        [reflexivity|cbn; f_equal; exact Hshape|exact Ht'|exact Hz].
Qed.

Lemma rerun_same_results_witness :
  results (perform_regression_analysis
             (perform_regression_analysis (loaded decline)))
  = results (perform_regression_analysis (loaded decline)).
Proof.
  apply (rerun_same_results (loaded decline) decline_r0 decline_rs eq_refl).
  intros ratio H. injection H as <-. reflexivity.
Defined.

(** ** Excluding a record without a numeric cumulative production *)

Lemma survives_text (ratio : float) (r : row) (s : string) :
  CumProduction r = CText s -> survives ratio r = false.
Proof.
  intros Hc. unfold survives, y_of. rewrite Hc. cbn.
  apply andb_false_r.
Qed.

Lemma transform_without_text
      (r0 : row) (l1 : list row) (bad : row) (l2 : list row) (s : string) :
  CumProduction bad = CText s ->
  transform (r0 :: l1 ++ bad :: l2) = transform (r0 :: l1 ++ l2).
Proof.
  intros Hc. rewrite !transform_cons.
  destruct (py_truediv (Pressure r0) (Z r0)) as [e|ratio]; [reflexivity|].
  cbn [filter]. rewrite !filter_app. cbn [filter].
  rewrite (survives_text ratio bad s Hc). reflexivity.
Qed.

Lemma filter_all (f : row -> bool) (l : list row) :
  forallb f l = true -> filter f l = l.
Proof.
  induction l as [|r l IH]; simpl; [reflexivity|].
  intros H. apply andb_true_iff in H. destruct H as [Hr Hl].
  rewrite Hr, (IH Hl). reflexivity.
Qed.

(** The results and the dialogs depend on the rows behind the first one only
    through the transform. *)
Lemma perform_by_transform (st : State) (r0 : row) (rs rs' : list row) :
  transform (r0 :: rs) = transform (r0 :: rs') ->
  results (perform_regression_analysis (set_production_data (r0 :: rs) st))
  = results (perform_regression_analysis (set_production_data (r0 :: rs') st))
  /\ messages (perform_regression_analysis (set_production_data (r0 :: rs) st))
     = messages (perform_regression_analysis (set_production_data (r0 :: rs') st)).
Proof.
  intros Ht. unfold perform_regression_analysis.
  cbn [production_data set_production_data]. rewrite Ht.
  destruct (transform (r0 :: rs')) as [e|df']; [split; reflexivity|].
  destruct (feqb (np_sum (arr_sq (values x df'))) fzero); split; reflexivity.
Qed.

(** C9, counterexample.  [text_first] is [decline] behind one record whose
    cumulative production is not a number.  The regression on it and the
    regression on [decline] store different slopes. *)
Lemma exclusion_of_first_row_differs :
  text_first = text_first_r0 :: decline
  /\ CumProduction text_first_r0 = CText "n/a"
  /\ exists s1 s2,
      slope (perform_regression_analysis (loaded text_first)) = Some (Fin s1)
      /\ slope (perform_regression_analysis (loaded decline)) = Some (Fin s2)
      /\ ~ s1 == s2.
Proof.
  split; [reflexivity|]. split; [reflexivity|].
  do 2 eexists. split; [vm_compute; reflexivity|].
  split; [vm_compute; reflexivity|].
  unfold Qeq. cbn. discriminate.
Qed.

(** C9, amended.  When the record without a numeric cumulative production
    is not the first record of the dataset, the regression stores the same
    slope, OGIP and R-squared, and shows the same dialogs, as on the dataset
    without that record; and when every other record has an [x] and a [y]
    that are not NaN, the transform returns exactly one point fewer than the
    dataset has rows. *)
Theorem exclusion_of_later_row
        (st : State) (r0 : row) (l1 : list row) (bad : row) (l2 : list row)
        (s : string) :
  CumProduction bad = CText s ->
  results (perform_regression_analysis
             (set_production_data (r0 :: l1 ++ bad :: l2) st))
  = results (perform_regression_analysis
               (set_production_data (r0 :: l1 ++ l2) st))
  /\ messages (perform_regression_analysis
                 (set_production_data (r0 :: l1 ++ bad :: l2) st))
     = messages (perform_regression_analysis
                   (set_production_data (r0 :: l1 ++ l2) st))
  /\ forall ratio,
      py_truediv (Pressure r0) (Z r0) = inr ratio ->
      forallb (survives ratio) (r0 :: l1 ++ l2) = true ->
      exists df',
        transform (r0 :: l1 ++ bad :: l2) = inr df'
        /\ transform (r0 :: l1 ++ l2) = inr df'
        /\ S (List.length df') = List.length (r0 :: l1 ++ bad :: l2).
Proof.
  intros Hc.
  pose proof (transform_without_text r0 l1 bad l2 s Hc) as Ht.
  destruct (perform_by_transform st r0 _ _ Ht) as [Hres Hmsg].
  split; [exact Hres|]. split; [exact Hmsg|].
  intros ratio Hdiv Hall.
  exists (map (set_xy ratio) (r0 :: l1 ++ l2)).
  rewrite Ht, transform_cons, Hdiv, (filter_all _ _ Hall).
  split; [reflexivity|]. split; [reflexivity|].
  rewrite length_map. cbn [List.length]. rewrite !length_app.
  cbn [List.length]. lia.
Qed.

Lemma exclusion_of_later_row_witness :
  results (perform_regression_analysis
             (set_production_data text_middle (loaded [])))
  = results (perform_regression_analysis
               (set_production_data decline (loaded []))).
Proof.
  exact (proj1 (exclusion_of_later_row
                  (loaded []) decline_r0 [] text_row decline_rs "n/a" eq_refl)).
Defined.

(** * Further properties of the regression and of the report *)

(** ** What an invocation touches *)

(** X1.  Every invocation of the regression shows exactly one dialog and
    writes no file; unless that dialog is the one with the results, the
    three result variables and the plot are left as they were. *)
Theorem perform_one_dialog (st : State) :
  exists m,
    messages (perform_regression_analysis st) = messages st ++ [m]
    /\ files (perform_regression_analysis st) = files st
    /\ ((forall s ogip r2, m <> showinfo_results s ogip r2) ->
        results (perform_regression_analysis st) = results st
        /\ reg_canvas (perform_regression_analysis st) = reg_canvas st).
Proof.
  unfold perform_regression_analysis.
  destruct (production_data st) as [[|r0 rs]|].
  - eexists. cbn. repeat split.
  - destruct (transform (r0 :: rs)) as [e|df'].
    + eexists. cbn. repeat split.
    + destruct (feqb (np_sum (arr_sq (values x df'))) fzero).
      * eexists. cbn. repeat split.
      * eexists. cbn. split; [reflexivity|]. split; [reflexivity|].
        intros Hm. exfalso. exact (Hm _ _ _ eq_refl).
  - eexists. cbn. repeat split.
Qed.

Lemma Forall_map_filter
      (A B : Type) (f : A -> B) (p : A -> bool) (P : B -> Prop) (l : list A) :
  (forall a, p a = true -> P (f a)) -> Forall P (map f (filter p l)).
Proof.
  intros H. induction l as [|a l IH]; simpl; [constructor|].
  destruct (p a) eqn:E; [|exact IH].
  constructor; [exact (H a E)|exact IH].
Qed.

Lemma transform_inr (df df' : DataFrame) :
  transform df = inr df' ->
  exists r0 rs ratio,
    df = r0 :: rs
    /\ py_truediv (Pressure r0) (Z r0) = inr ratio
    /\ df' = map (set_xy ratio) (filter (survives ratio) df).
Proof.
  destruct df as [|r0 rs]; [discriminate|].
  rewrite transform_cons.
  destruct (py_truediv (Pressure r0) (Z r0)) as [e|ratio] eqn:E; [discriminate|].
  intros H. injection H as <-. exists r0, rs, ratio. repeat split. exact E.
Qed.

Lemma transform_values_not_nan (df df' : DataFrame) :
  transform df = inr df' ->
  Forall (fun v => isna v = false) (values x df')
  /\ Forall (fun v => isna v = false) (values y df').
Proof.
  intros Ht.
  destruct (transform_inr df df' Ht) as [r0 [rs [ratio [Hdf [_ Hdf']]]]].
  subst df'. rewrite values_x_set_xy, values_y_set_xy.
  split; apply Forall_map_filter; intros r Hr; unfold survives in Hr;
    apply andb_true_iff in Hr; destruct Hr as [Hx Hy].
  - apply negb_true_iff in Hx. exact Hx.
  - apply negb_true_iff in Hy. exact Hy.
Qed.

(** X2.  When the transform returns, no NaN reaches the fit: every [x] and
    every [y] handed on is not NaN, there are as many of the ones as of the
    others, and no more than the dataset had rows. *)
Theorem no_nan_reaches_the_fit (df df' : DataFrame) :
  transform df = inr df' ->
  Forall (fun v => isna v = false) (values x df')
  /\ Forall (fun v => isna v = false) (values y df')
  /\ List.length (values x df') = List.length (values y df')
  /\ (List.length df' <= List.length df)%nat.
Proof.
  intros Ht.
  destruct (transform_values_not_nan df df' Ht) as [Hx Hy].
  split; [exact Hx|]. split; [exact Hy|].
  destruct (transform_inr df df' Ht) as [r0 [rs [ratio [Hdf [_ Hdf']]]]].
  subst df'. split.
  - unfold values. rewrite !length_map. reflexivity.
  - rewrite length_map. apply filter_length_le.
Qed.

Lemma no_nan_reaches_the_fit_witness :
  Forall (fun v => isna v = false)
         (values x (map (set_xy (Fin 5000)) decline))
  /\ Forall (fun v => isna v = false)
            (values y (map (set_xy (Fin 5000)) decline))
  /\ List.length (values x (map (set_xy (Fin 5000)) decline))
     = List.length (values y (map (set_xy (Fin 5000)) decline))
  /\ (List.length (map (set_xy (Fin 5000)) decline)
      <= List.length text_first)%nat.
Proof.
  apply (no_nan_reaches_the_fit text_first (map (set_xy (Fin 5000)) decline)).
  reflexivity.
Defined.

(** ** Histories that cannot be fitted *)

Lemma py_truediv_exn (a b : float) (e : exn) :
  py_truediv a b = inl e -> e = ZeroDivisionError.
Proof.
  unfold py_truediv. destruct (feqb b fzero); [|discriminate].
  intros H. injection H as <-. reflexivity.
Qed.

(** A value minus itself is NaN or a finite zero. *)
Lemma fsub_self (a : float) :
  fsub a a = NaN \/ exists q, fsub a a = Fin q /\ q == 0.
Proof.
  destruct a as [q| | |]; cbn; try (left; reflexivity).
  right. exists (q + - q). split; [reflexivity|ring].
Qed.

Lemma filter_ext_in_rows (f g : row -> bool) (l : list row) :
  (forall r, In r l -> f r = g r) -> filter f l = filter g l.
Proof.
  induction l as [|r l IH]; intros H; simpl; [reflexivity|].
  rewrite (H r (or_introl eq_refl)).
  rewrite IH by (intros r' Hr'; apply H; right; exact Hr').
  reflexivity.
Qed.

Lemma filter_none (f : row -> bool) (l : list row) :
  (forall r, In r l -> f r = false) -> filter f l = [].
Proof.
  induction l as [|r l IH]; intros H; simpl; [reflexivity|].
  rewrite (H r (or_introl eq_refl)).
  apply IH. intros r' Hr'. apply H. right. exact Hr'.
Qed.

(** X3.  A dataset in which every record repeats the pressure and the
    Z-factor of the first one, in particular a dataset of one record, never
    yields results: the invocation ends in "Calculation Error" (a Z-factor
    of zero) or in "Regression Error", and the results are left as they
    were. *)
Theorem flat_history_never_fits (st : State) (r0 : row) (rs : list row) :
  production_data st = Some (r0 :: rs) ->
  (forall r, In r rs -> Pressure r = Pressure r0 /\ Z r = Z r0) ->
  results (perform_regression_analysis st) = results st
  /\ (messages (perform_regression_analysis st)
      = messages st ++ [calculation_error ZeroDivisionError]
      \/ messages (perform_regression_analysis st)
         = messages st ++ [regression_error]).
Proof.
  intros Hd Hflat.
  destruct (py_truediv (Pressure r0) (Z r0)) as [e|ratio] eqn:Hdiv.
  - pose proof (py_truediv_exn _ _ _ Hdiv) as ->.
    rewrite (perform_raises st r0 rs ZeroDivisionError Hd)
      by (rewrite transform_cons, Hdiv; reflexivity).
    split; [reflexivity|left; reflexivity].
  - destruct (py_truediv_inr _ _ _ Hdiv) as [_ Hratio].
    assert (Hx : forall r, In r (r0 :: rs) -> x_of ratio r = fsub ratio ratio).
    { intros r [<-|Hr]; unfold x_of; [rewrite Hratio; reflexivity|].
      destruct (Hflat r Hr) as [-> ->]. rewrite Hratio. reflexivity. }
    assert (Hdeg : exists df', transform (r0 :: rs) = inr df'
                               /\ feqb (sum_sq_x df') fzero = true).
    { rewrite transform_cons, Hdiv.
      eexists. split; [reflexivity|].
      destruct (fsub_self ratio) as [Hnan|[q [Hq Hq0]]].
      - rewrite (filter_none (survives ratio) (r0 :: rs)); [reflexivity|].
        intros r Hr. unfold survives. rewrite (Hx r Hr), Hnan. reflexivity.
      - apply (no_decline_degenerate _
                 (map (fun _ => (q, 0)) (filter (survives ratio) (r0 :: rs)))).
        + rewrite values_x_set_xy. unfold xs_of. rewrite map_map. cbn [fst].
          apply map_ext_in. intros r Hr. apply filter_In in Hr.
          rewrite (Hx r (proj1 Hr)). exact Hq.
        + intros p Hp. apply in_map_iff in Hp. destruct Hp as [r [<- _]].
          exact Hq0. }
    destruct Hdeg as [df' [Ht Hz]].
    rewrite (perform_degenerate st r0 rs df' Hd Ht Hz).
    split; [reflexivity|right; reflexivity].
Qed.

Lemma flat_history_never_fits_witness :
  results (perform_regression_analysis (loaded flat)) = results (loaded flat)
  /\ (messages (perform_regression_analysis (loaded flat))
      = messages (loaded flat) ++ [calculation_error ZeroDivisionError]
      \/ messages (perform_regression_analysis (loaded flat))
         = messages (loaded flat) ++ [regression_error]).
Proof.
  apply (flat_history_never_fits (loaded flat) flat_r0 flat_rs eq_refl).
  intros r [<-|[]]. split; reflexivity.
Defined.

(** X4.  When the filter keeps no record (for one, when no cumulative
    production is a number), the invocation reports "Regression Error" and
    leaves an empty dataset behind, so that the next invocation reports "No
    Data" and asks for a file to be loaded. *)
Theorem emptied_dataset_needs_reload
        (st : State) (r0 : row) (rs : list row) (ratio : float) :
  production_data st = Some (r0 :: rs) ->
  py_truediv (Pressure r0) (Z r0) = inr ratio ->
  forallb (fun r => negb (survives ratio r)) (r0 :: rs) = true ->
  perform_regression_analysis st
  = show regression_error (set_production_data [] st)
  /\ perform_regression_analysis (perform_regression_analysis st)
     = show no_data (perform_regression_analysis st).
Proof.
  intros Hd Hdiv Hnone.
  assert (Hfirst : perform_regression_analysis st
                   = show regression_error (set_production_data [] st)).
  { apply (perform_degenerate st r0 rs [] Hd); [|reflexivity].
    rewrite transform_cons, Hdiv.
    rewrite (filter_none (survives ratio) (r0 :: rs)); [reflexivity|].
    intros r Hr. rewrite forallb_forall in Hnone.
    apply negb_true_iff. exact (Hnone r Hr). }
  split; [exact Hfirst|].
  rewrite Hfirst. reflexivity.
Qed.

Lemma emptied_dataset_needs_reload_witness :
  perform_regression_analysis (loaded all_text)
  = show regression_error (set_production_data [] (loaded all_text))
  /\ perform_regression_analysis (perform_regression_analysis (loaded all_text))
     = show no_data (perform_regression_analysis (loaded all_text)).
Proof.
  apply (emptied_dataset_needs_reload
           (loaded all_text)
           (record "2020-01-01" (Fin 4000) (Fin 1) (CText "n/a"))
           [record "2020-07-01" (Fin 3000) (Fin 1) (CText "-")]
           (Fin 4000));
    reflexivity.
Defined.

(** ** Infinite values *)

Lemma sum_sq_inf_acc (xs : ndarray) (acc : float) :
  Forall (fun v => isna v = false) xs ->
  (acc = PInf \/ (exists q, acc = Fin q) /\ Exists (fun v => is_inf v = true) xs) ->
  fold_left fadd (arr_sq xs) acc = PInf.
Proof.
  revert acc. induction xs as [|v xs IH]; intros acc Hnan Hacc.
  - destruct Hacc as [->|[_ Hex]]; [reflexivity|inversion Hex].
  - inversion Hnan as [|? ? Hv Hrest]; subst. cbn [arr_sq map fold_left].
    apply IH; [exact Hrest|].
    destruct Hacc as [->|[[q ->] Hex]].
    + left. destruct v as [p| | |]; cbn; try reflexivity; discriminate.
    + destruct v as [p| | |]; try discriminate; cbn.
      * right. split; [eexists; reflexivity|].
        inversion Hex as [? ? Hhd|? ? Htl]; subst; [discriminate|exact Htl].
      * left. reflexivity.
      * left. reflexivity.
Qed.

Lemma fdiv_by_pinf (a : float) : fdiv a PInf = Fin 0 \/ fdiv a PInf = NaN.
Proof. destruct a; cbn; auto. Qed.

(** X5.  The filter removes NaN only.  When an infinite [x] survives it (a
    Z-factor of zero in a record other than the first gives one), the sum of
    squares is infinite, the invocation reports results all the same, and
    the slope it reports is 0 or NaN. *)
Theorem infinite_x_spoils_the_fit
        (st : State) (r0 : row) (rs : list row) (df' : DataFrame) :
  production_data st = Some (r0 :: rs) ->
  transform (r0 :: rs) = inr df' ->
  Exists (fun v => is_inf v = true) (values x df') ->
  exists s ogip r2,
    messages (perform_regression_analysis st)
    = messages st ++ [showinfo_results s ogip r2]
    /\ slope (perform_regression_analysis st) = Some s
    /\ (s = Fin 0 \/ s = NaN).
Proof.
  intros Hd Ht Hinf.
  destruct (transform_values_not_nan _ _ Ht) as [Hnan _].
  assert (Hsum : sum_sq_x df' = PInf).
  { unfold sum_sq_x, np_sum. apply sum_sq_inf_acc; [exact Hnan|].
    right. split; [eexists; reflexivity|exact Hinf]. }
  assert (Hnz : feqb (sum_sq_x df') fzero = false) by (rewrite Hsum; reflexivity).
  rewrite (perform_fits st r0 rs df' Hd Ht Hnz). cbn.
  do 3 eexists. split; [reflexivity|]. split; [reflexivity|].
  unfold fit_slope. fold (sum_sq_x df'). rewrite Hsum. apply fdiv_by_pinf.
Qed.

Lemma infinite_x_spoils_the_fit_witness :
  exists s ogip r2,
    messages (perform_regression_analysis (loaded zero_z_later))
    = messages (loaded zero_z_later) ++ [showinfo_results s ogip r2]
    /\ slope (perform_regression_analysis (loaded zero_z_later)) = Some s
    /\ (s = Fin 0 \/ s = NaN).
Proof.
  apply (infinite_x_spoils_the_fit
           (loaded zero_z_later) decline_r0 zero_z_later_rs
           (map (set_xy (Fin 4000)) zero_z_later));
    [reflexivity|reflexivity|].
  apply Exists_cons_tl. apply Exists_cons_hd. reflexivity.
Defined.

(** ** The report *)

Lemma save_report_results (file_path : string) (write_ok : bool) (st : State) :
  results (save_report file_path write_ok st) = results st.
Proof.
  unfold save_report, results.
  destruct (estimated_ogip_scf st) as [ogip|] eqn:Ho; [|cbn; rewrite Ho; reflexivity].
  destruct (String.eqb file_path EmptyString); [rewrite Ho; reflexivity|].
  destruct (slope st) as [s|] eqn:Hs; destruct (r_squared st) as [r2|] eqn:Hr;
    try destruct write_ok; cbn; rewrite ?Ho, ?Hs, ?Hr; reflexivity.
Qed.

(** X6.  [save_report] never changes the dataset, the results or the plot;
    it shows at most one dialog; and it leaves the files as they were or
    adds one report under the path of the dialog, the latter only when the
    path is not empty and the write succeeds. *)
Theorem save_report_frame (file_path : string) (write_ok : bool) (st : State) :
  production_data (save_report file_path write_ok st) = production_data st
  /\ results (save_report file_path write_ok st) = results st
  /\ reg_canvas (save_report file_path write_ok st) = reg_canvas st
  /\ (messages (save_report file_path write_ok st) = messages st
      \/ exists m, messages (save_report file_path write_ok st)
                   = messages st ++ [m])
  /\ (files (save_report file_path write_ok st) = files st
      \/ (String.eqb file_path EmptyString = false /\ write_ok = true
          /\ exists rep, files (save_report file_path write_ok st)
                         = files st ++ [(file_path, rep)])).
Proof.
  unfold save_report, results.
  destruct (estimated_ogip_scf st) as [ogip|] eqn:Ho.
  - destruct (String.eqb file_path EmptyString) eqn:Hp.
    + rewrite Ho. repeat split; left; reflexivity.
    + destruct (slope st) as [s|] eqn:Hs; destruct (r_squared st) as [r2|] eqn:Hr;
        try destruct write_ok; cbn; rewrite ?Ho, ?Hs, ?Hr;
        repeat split; try (left; reflexivity);
        try (right; eexists; reflexivity).
      right. repeat split. eexists. reflexivity.
  - cbn. rewrite Ho. repeat split; try (left; reflexivity).
    right. eexists. reflexivity.
Qed.

(** X7.  The three result variables are set together.  From a state where
    they are all unset or all set, the regression and the report lead to
    such a state again, and there the report never fails on formatting a
    missing value: its dialog is never the "Save Error" of a [TypeError]. *)
Theorem results_assigned_together (st : State) :
  results_consistent st ->
  results_consistent (perform_regression_analysis st)
  /\ forall file_path write_ok,
      results_consistent (save_report file_path write_ok st)
      /\ messages (save_report file_path write_ok st)
         <> messages st
            ++ [showerror_exn "Save Error" "Failed to save report: " TypeError].
Proof.
  intros Hc. split.
  - unfold perform_regression_analysis.
    destruct (production_data st) as [[|r0 rs]|]; try exact Hc.
    destruct (transform (r0 :: rs)) as [e|df']; [exact Hc|].
    destruct (feqb (np_sum (arr_sq (values x df'))) fzero); [exact Hc|].
    exact I.
  - intros file_path write_ok.
    pose proof (save_report_results file_path write_ok st) as Hres.
    split.
    + unfold results_consistent. unfold results in Hres.
      injection Hres as -> -> ->. exact Hc.
    + unfold results_consistent in Hc. unfold save_report.
      destruct (estimated_ogip_scf st) as [ogip|].
      * destruct (String.eqb file_path EmptyString).
        -- intros H. apply (f_equal (@List.length message)) in H.
           rewrite length_app in H. cbn in H. lia.
        -- destruct (slope st) as [s|]; [|contradiction].
           destruct (r_squared st) as [r2|]; [|contradiction].
           destruct write_ok; cbn; intros H; apply app_inv_head in H;
             discriminate H.
      * cbn. intros H. apply app_inv_head in H. discriminate H.
Qed.

Lemma results_assigned_together_witness :
  results_consistent (perform_regression_analysis (loaded decline))
  /\ forall file_path write_ok,
      results_consistent (save_report file_path write_ok (loaded decline))
      /\ messages (save_report file_path write_ok (loaded decline))
         <> messages (loaded decline)
            ++ [showerror_exn "Save Error" "Failed to save report: " TypeError].
Proof.
  apply (results_assigned_together (loaded decline)). exact I.
Defined.



(** * Properties of the loader and of the column mapper *)

Lemma filter_none_gen (A : Type) (f : A -> bool) (l : list A) :
  (forall a, In a l -> f a = false) -> filter f l = [].
Proof.
  induction l as [|a l IH]; intros H; simpl; [reflexivity|].
  rewrite (H a (or_introl eq_refl)).
  apply IH. intros a' Ha'. apply H. right. exact Ha'.
Qed.

Lemma missing_columns_nil (data : Loader.frame) :
  Loader.missing_columns data = []
  <-> forall c, In c Loader.required_columns -> In c (Loader.columns data).
Proof.
  unfold Loader.missing_columns. split.
  - intros Hnil c Hc.
    destruct (existsb (String.eqb c) (Loader.columns data)) eqn:E.
    + apply existsb_exists in E. destruct E as [c' [Hin Heq]].
      apply String.eqb_eq in Heq. subst c'. exact Hin.
    + assert (Hin : In c (filter
                            (fun col => negb (existsb (String.eqb col)
                                                      (Loader.columns data)))
                            Loader.required_columns)).
      { apply filter_In. split; [exact Hc|]. rewrite E. reflexivity. }
      rewrite Hnil in Hin. destruct Hin.
  - intros Hall.
    apply (filter_none_gen string). intros c Hc.
    apply negb_false_iff. apply existsb_exists.
    exists c. split; [exact (Hall c Hc)|apply String.eqb_refl].
Qed.

(** X13.  A load replaces the dataset exactly when a file was chosen, it
    was read, and each of the four required columns is among its columns;
    it then announces the load.  When the dialog was cancelled, the read
    failed or a required column is absent, the dataset loaded before stays
    in place. *)
Theorem load_replaces_only_valid
        (file_path : string) (read_csv : string + Loader.frame)
        (st : Loader.State) :
  (forall data,
      String.eqb file_path EmptyString = false ->
      read_csv = inr data ->
      (forall c, In c Loader.required_columns -> In c (Loader.columns data)) ->
      Loader.production_data (Loader.load_production_data file_path read_csv st)
      = Some data
      /\ Loader.messages (Loader.load_production_data file_path read_csv st)
         = Loader.messages st
           ++ [showinfo "Data Loaded"
                 ("Production data loaded successfully from:"
                    ++ newline ++ file_path)])
  /\ (String.eqb file_path EmptyString = true
      \/ (exists e, read_csv = inl e)
      \/ (exists data c,
             read_csv = inr data
             /\ In c Loader.required_columns
             /\ ~ In c (Loader.columns data)) ->
      Loader.production_data (Loader.load_production_data file_path read_csv st)
      = Loader.production_data st).
Proof.
  unfold Loader.load_production_data. split.
  - intros data Hp -> Hall. rewrite Hp.
    rewrite (proj2 (missing_columns_nil data) Hall). split; reflexivity.
  - intros [Hp|[[e ->]|[data [c [-> [Hc Hnot]]]]]].
    + rewrite Hp. reflexivity.
    + destruct (String.eqb file_path EmptyString); reflexivity.
    + destruct (String.eqb file_path EmptyString); [reflexivity|].
      destruct (Loader.missing_columns data) as [|m ms] eqn:E; [|reflexivity].
      exfalso. apply Hnot. exact (proj1 (missing_columns_nil data) E c Hc).
Qed.

Lemma NoDup_required_columns : NoDup Loader.required_columns.
Proof.
  unfold Loader.required_columns.
  repeat constructor; cbn; intros H;
    repeat (destruct H as [H|H]; [discriminate H|]); exact H.
Qed.

(** X14.  When a file was read and some required column is absent, the
    "Missing Columns" dialog names exactly the required columns that are
    not among the columns of the file, each once. *)
Theorem missing_columns_reported
        (file_path : string) (data : Loader.frame) (st : Loader.State)
        (c0 : string) :
  String.eqb file_path EmptyString = false ->
  In c0 Loader.required_columns ->
  ~ In c0 (Loader.columns data) ->
  exists missing,
    Loader.messages (Loader.load_production_data file_path (inr data) st)
    = Loader.messages st
      ++ [showerror "Missing Columns"
            ("Missing columns: " ++ String.concat ", " missing)]
    /\ NoDup missing
    /\ forall c,
        In c missing
        <-> In c Loader.required_columns /\ ~ In c (Loader.columns data).
Proof.
  intros Hp Hc0 Hnot.
  exists (Loader.missing_columns data). split; [|split].
  - unfold Loader.load_production_data. rewrite Hp.
    destruct (Loader.missing_columns data) as [|m ms] eqn:E; [|reflexivity].
    exfalso. apply Hnot. exact (proj1 (missing_columns_nil data) E c0 Hc0).
  - apply NoDup_filter. exact NoDup_required_columns.
  - intros c. unfold Loader.missing_columns. rewrite filter_In.
    split; intros [Hc H]; (split; [exact Hc|]).
    + intros Hin. apply negb_true_iff in H.
      assert (Ht : existsb (String.eqb c) (Loader.columns data) = true).
      { apply existsb_exists. exists c. split; [exact Hin|apply String.eqb_refl]. }
      congruence.
    + apply negb_true_iff.
      destruct (existsb (String.eqb c) (Loader.columns data)) eqn:E;
        [|reflexivity].
      exfalso. apply H. apply existsb_exists in E.
      destruct E as [c' [Hin Heq]]. apply String.eqb_eq in Heq. subst c'.
      exact Hin.
Qed.

Lemma missing_columns_reported_witness :
  exists missing,
    Loader.messages
      (Loader.load_production_data
         "wells.csv"
         (inr [Loader.mkColumn "Date" []; Loader.mkColumn "Pressure" []])
         (Loader.mkState None []))
    = [showerror "Missing Columns"
         ("Missing columns: " ++ String.concat ", " missing)]
    /\ NoDup missing
    /\ forall c,
        In c missing
        <-> In c Loader.required_columns
            /\ ~ In c (Loader.columns
                         [Loader.mkColumn "Date" []; Loader.mkColumn "Pressure" []]).
Proof.
  apply (missing_columns_reported
           "wells.csv"
           [Loader.mkColumn "Date" []; Loader.mkColumn "Pressure" []]
           (Loader.mkState None []) "Z").
  - reflexivity.
  - cbn. auto.
  - cbn. intros [H|[H|[]]]; discriminate H.
Defined.

Lemma rename_length (d : Loader.dict) (df : Loader.frame) :
  List.length (Loader.rename d df) = List.length df.
Proof. apply length_map. Qed.

Lemma reachable_four_columns (st : Loader.State) :
  Loader.reachable st ->
  forall df, Loader.production_data st = Some df -> (4 <= List.length df)%nat.
Proof.
  induction 1 as [|file_path read_csv st _ IH|st _ IH|w st st' _ IH Hc];
    intros df Hdf.
  - discriminate Hdf.
  - unfold Loader.load_production_data in Hdf.
    destruct (String.eqb file_path EmptyString); [exact (IH df Hdf)|].
    destruct read_csv as [e|data]; [exact (IH df Hdf)|].
    destruct (Loader.missing_columns data) as [|m ms] eqn:E;
      [|exact (IH df Hdf)].
    cbn in Hdf. injection Hdf as <-.
    pose proof (proj1 (missing_columns_nil data) E) as Hall.
    pose proof (NoDup_incl_length NoDup_required_columns Hall) as Hlen.
    unfold Loader.columns in Hlen. rewrite length_map in Hlen. exact Hlen.
  - unfold Loader.select_columns in Hdf.
    destruct (Loader.production_data st) as [df0|] eqn:E.
    + destruct (nth_error (Loader.columns df0) 0);
        destruct (nth_error (Loader.columns df0) 1);
        destruct (nth_error (Loader.columns df0) 2);
        cbn in Hdf; rewrite E in Hdf; exact (IH df Hdf).
    + cbn in Hdf. rewrite E in Hdf. discriminate Hdf.
  - unfold Loader.confirm_selection in Hc.
    destruct (Loader.production_data st) as [df0|] eqn:E; [|discriminate Hc].
    injection Hc as <-. cbn in Hdf. injection Hdf as <-.
    rewrite rename_length. exact (IH df0 eq_refl).
Qed.

(** X15.  In every state the program can reach by loading files and
    confirming selections, a loaded dataset has at least four columns, so
    that [select_columns] never fails on indexing the first three labels:
    it opens the window with these as the selection, or, without a dataset,
    reports "No Data". *)
Theorem select_columns_never_raises (st : Loader.State) :
  Loader.reachable st ->
  (Loader.production_data st = None
   /\ Loader.select_columns st = (Loader.show no_data st, inr None))
  \/ (exists df a b c rest,
         Loader.production_data st = Some df
         /\ (4 <= List.length df)%nat
         /\ Loader.columns df = a :: b :: c :: rest
         /\ Loader.select_columns st
            = (st, inr (Some (Loader.mkWindow (Loader.columns df) a b c)))).
Proof.
  intros Hr. unfold Loader.select_columns.
  destruct (Loader.production_data st) as [df|] eqn:E.
  - right. pose proof (reachable_four_columns st Hr df E) as Hlen.
    assert (Hcols : List.length (Loader.columns df) = List.length df)
      by apply length_map.
    destruct (Loader.columns df) as [|a [|b [|c rest]]] eqn:Ec;
      cbn in Hcols; try lia.
    exists df, a, b, c, rest. rewrite Ec.
    split; [reflexivity|]. split; [exact Hlen|]. split; reflexivity.
  - left. split; reflexivity.
Qed.

Lemma select_columns_never_raises_witness :
  let st := Loader.load_production_data
              "wells.csv" (inr canonical_table) (Loader.mkState None []) in
  (Loader.production_data st = None
   /\ Loader.select_columns st = (Loader.show no_data st, inr None))
  \/ (exists df a b c rest,
         Loader.production_data st = Some df
         /\ (4 <= List.length df)%nat
         /\ Loader.columns df = a :: b :: c :: rest
         /\ Loader.select_columns st
            = (st, inr (Some (Loader.mkWindow (Loader.columns df) a b c)))).
Proof.
  intros st.
  apply (select_columns_never_raises st).
  apply Loader.reach_load. apply Loader.reach_start.
Defined.

(** ** Renaming *)

Lemma dict_get_selection (p z c l : string) :
  Loader.dict_get l
    (Loader.dict_set c "CumProduction"
       (Loader.dict_set z "Z" (Loader.dict_set p "Pressure" [])))
  = if String.eqb l c then Some "CumProduction"%string
    else if String.eqb l z then Some "Z"%string
    else if String.eqb l p then Some "Pressure"%string
    else None.
Proof.
  cbn [Loader.dict_set].
  destruct (String.eqb_spec p z) as [Hpz|Hpz];
    cbn [Loader.dict_set];
    destruct (String.eqb_spec p c) as [Hpc|Hpc];
    destruct (String.eqb_spec z c) as [Hzc|Hzc];
    cbn [Loader.dict_set Loader.dict_get];
    destruct (String.eqb_spec l c) as [Hlc|Hlc];
    destruct (String.eqb_spec l z) as [Hlz|Hlz];
    destruct (String.eqb_spec l p) as [Hlp|Hlp];
    subst; try congruence;
    repeat match goal with
           | |- context [String.eqb ?a ?a] => rewrite (String.eqb_refl a)
           | H : ?a <> ?b |- context [String.eqb ?a ?b] =>
               rewrite (proj2 (String.eqb_neq a b) H)
           | H : ?a <> ?b |- context [String.eqb ?b ?a] =>
               rewrite (proj2 (String.eqb_neq b a) (not_eq_sym H))
           end;
    try reflexivity; try congruence.
Qed.

Lemma rename_selection (p z c : string) (df : Loader.frame) :
  Loader.columns
    (Loader.rename
       (Loader.dict_set c "CumProduction"
          (Loader.dict_set z "Z" (Loader.dict_set p "Pressure" []))) df)
  = map (Loader.relabel p z c) (Loader.columns df)
  /\ map Loader.content
         (Loader.rename
            (Loader.dict_set c "CumProduction"
               (Loader.dict_set z "Z" (Loader.dict_set p "Pressure" []))) df)
     = map Loader.content df.
Proof.
  unfold Loader.columns, Loader.rename. rewrite !map_map. split.
  - apply map_ext. intros col. cbn [Loader.label].
    rewrite dict_get_selection. unfold Loader.relabel.
    destruct (String.eqb (Loader.label col) c); [reflexivity|].
    destruct (String.eqb (Loader.label col) z); [reflexivity|].
    destruct (String.eqb (Loader.label col) p); reflexivity.
  - apply map_ext. intros col. reflexivity.
Qed.

(** X16.  Confirming a selection gives every column labelled with the
    production selection the label "CumProduction", every other column
    labelled with the Z selection the label "Z", and every other column
    labelled with the pressure selection the label "Pressure": a column
    selected for two roles takes the name of the later one, and the name of
    the earlier role is then given to no column.  All other labels, the
    number and the order of the columns and their contents stay as they
    were. *)
Theorem confirm_selection_relabels
        (w : Loader.window) (st : Loader.State) (df : Loader.frame) :
  Loader.production_data st = Some df ->
  exists df',
    Loader.confirm_selection w st
    = inr (Loader.mkState
             (Some df')
             (Loader.messages st
                ++ [showinfo "Columns Set" "Columns mapped successfully."]))
    /\ Loader.columns df'
       = map (Loader.relabel (Loader.pressure_var w) (Loader.z_var w)
                             (Loader.production_var w))
             (Loader.columns df)
    /\ map Loader.content df' = map Loader.content df.
Proof.
  intros Hd. unfold Loader.confirm_selection. rewrite Hd.
  eexists. split; [reflexivity|].
  apply rename_selection.
Qed.

Lemma confirm_selection_relabels_witness :
  exists df',
    Loader.confirm_selection
      (Loader.mkWindow (Loader.columns canonical_table) "Pressure" "Pressure" "Well")
      (Loader.mkState (Some canonical_table) [])
    = inr (Loader.mkState
             (Some df')
             [showinfo "Columns Set" "Columns mapped successfully."])
    /\ Loader.columns df'
       = map (Loader.relabel "Pressure" "Pressure" "Well")
             (Loader.columns canonical_table)
    /\ map Loader.content df' = map Loader.content canonical_table.
Proof.
  apply (confirm_selection_relabels
           (Loader.mkWindow (Loader.columns canonical_table)
                            "Pressure" "Pressure" "Well")
           (Loader.mkState (Some canonical_table) []) canonical_table).
  reflexivity.
Defined.

(** X17.  On a dataset whose columns start with Date, Pressure, Z and
    CumProduction, the order the loader requires them by name, the window
    opens with Date, Pressure and Z selected; confirming it as it opens
    labels the dates "Pressure", the pressures "Z" and the Z-factors
    "CumProduction", beside the cumulative production that keeps its
    label. *)
Theorem default_selection_shifts_columns
        (st : Loader.State) (df : Loader.frame) (rest : list string) :
  Loader.production_data st = Some df ->
  Loader.columns df
  = ("Date" :: "Pressure" :: "Z" :: "CumProduction" :: rest)%string ->
  exists w st' df',
    Loader.select_columns st = (st, inr (Some w))
    /\ (Loader.pressure_var w, Loader.z_var w, Loader.production_var w)
       = ("Date", "Pressure", "Z")%string
    /\ Loader.confirm_selection w st = inr st'
    /\ Loader.production_data st' = Some df'
    /\ Loader.columns df'
       = ("Pressure" :: "Z" :: "CumProduction" :: "CumProduction"
            :: map (Loader.relabel "Date" "Pressure" "Z") rest)%string
    /\ map Loader.content df' = map Loader.content df.
Proof.
  intros Hd Hcols.
  destruct (rename_selection "Date" "Pressure" "Z" df) as [Hc Hk].
  rewrite Hcols in Hc.
  unfold Loader.select_columns, Loader.confirm_selection. rewrite Hd, Hcols.
  cbn [nth_error].
  do 3 eexists. split; [reflexivity|].
  cbn [Loader.pressure_var Loader.z_var Loader.production_var].
  split; [reflexivity|]. split; [reflexivity|]. split; [reflexivity|].
  split; [exact Hc|exact Hk].
Qed.

Lemma default_selection_shifts_columns_witness :
  exists w st' df',
    Loader.select_columns (Loader.mkState (Some canonical_table) [])
    = (Loader.mkState (Some canonical_table) [], inr (Some w))
    /\ (Loader.pressure_var w, Loader.z_var w, Loader.production_var w)
       = ("Date", "Pressure", "Z")%string
    /\ Loader.confirm_selection w (Loader.mkState (Some canonical_table) [])
       = inr st'
    /\ Loader.production_data st' = Some df'
    /\ Loader.columns df'
       = ("Pressure" :: "Z" :: "CumProduction" :: "CumProduction"
            :: map (Loader.relabel "Date" "Pressure" "Z") ["Well"])%string
    /\ map Loader.content df' = map Loader.content canonical_table.
Proof.
  apply (default_selection_shifts_columns
           (Loader.mkState (Some canonical_table) []) canonical_table ["Well"%string]);
    reflexivity.
Defined.
